(** * inttrack.py: numbers that record the operations applied to them

    A shallow embedding of [inttrack.py] and the properties of its
    tracking wrappers ([IntTrack], [DecimalTrack]), of the namedtuple
    nodes they record and of the renderer [expression].

    Python objects are modelled by the inductive type [value]; a call
    that may raise returns a [result].  The builtins the module relies
    on ([int], [Decimal], the functions of [operator], [str], tuple
    equality) are modelled first, then the module's own functions, then
    the module's tests and the properties.  Python 3 is assumed: [/] is
    [__truediv__] (lines 120-122 and 147-149 define the [__div__] of
    Python 2). *)

From Stdlib Require Import ZArith QArith Qround Qabs Bool List String Ascii Lia.
From Stdlib Require Import Numbers.DecimalString.
From Stdlib Require Import Floats.SpecFloat.
Import ListNotations.

Local Open Scope Z_scope.

(* ================================================================== *)
(** * Exceptions and results *)
(* ================================================================== *)

(** The exceptions the builtins used by the module can raise.
    [InvalidOperation], [DivisionByZero] and [Overflow] are the trapped
    signals of the default [decimal] context. *)
Inductive exn : Type :=
  | TypeError
  | ValueError
  | ZeroDivisionError
  | OverflowError
  | KeyError
  | IndexError
  | InvalidOperation
  | DivisionByZero
  | Overflow.

Inductive result (A : Type) : Type :=
  | Ok (a : A)
  | Raise (e : exn).

Arguments Ok {A} a.
Arguments Raise {A} e.

Definition bind {A B : Type} (c : result A) (k : A -> result B) : result B :=
  match c with
  | Ok a => k a
  | Raise e => Raise e
  end.

Declare Scope py_scope.
Delimit Scope py_scope with py.
Notation "x <- c ;; k" := (bind c (fun x => k))
  (at level 61, c at next level, right associativity) : py_scope.

Definition is_ok {A : Type} (c : result A) : bool :=
  match c with Ok _ => true | Raise _ => false end.

(* ================================================================== *)
(** * Numbers *)
(* ================================================================== *)

(** A finite Python [float]: the dyadic [(-1)^f_sign * f_mant * 2^f_exp].
    The functions below depend on the number only, so the mantissa is
    not required to be normalised.  Infinities and NaN are not part of
    the development. *)
Record float : Type := mkfloat {
  f_sign : bool;
  f_mant : N;
  f_exp : Z
}.

(** A finite [decimal.Decimal]: sign [_sign], coefficient [_int] (kept
    as a string of digits by the library, here as the natural number it
    denotes) and exponent [_exp].  Infinities and NaNs are not part of
    the development. *)
Record decimal : Type := mkdec {
  d_sign : bool;
  d_int : N;
  d_exp : Z
}.

Definition signed (s : bool) (m : Z) : Z := if s then - m else m.

(** [10 ** k] and [2 ** k] for [k >= 0]. *)
Definition pow10 (k : Z) : Z := 10 ^ k.
Definition pow2 (k : Z) : Z := 2 ^ k.

(** The integer part of [m * 2^e] for [m >= 0]. *)
Definition trunc_pos (m e : Z) : Z :=
  if 0 <=? e then m * pow2 e else m / pow2 (- e).

(** [int(f)] for a float: truncation toward zero. *)
Definition float_trunc (f : float) : Z :=
  signed (f_sign f) (trunc_pos (Z.of_N (f_mant f)) (f_exp f)).

(** [Decimal.__int__]: truncation toward zero. *)
Definition decimal_trunc (d : decimal) : Z :=
  let c := Z.of_N (d_int d) in
  signed (d_sign d)
    (if 0 <=? d_exp d then c * pow10 (d_exp d) else c / pow10 (- d_exp d)).

(** The exact rational a number denotes. *)
Definition Qpow (b : Z) (e : Z) : Q := Qpower (inject_Z b) e.

Definition float_Q (f : float) : Q :=
  (inject_Z (signed (f_sign f) (Z.of_N (f_mant f))) * Qpow 2 (f_exp f))%Q.

Definition decimal_Q (d : decimal) : Q :=
  (inject_Z (signed (d_sign d) (Z.of_N (d_int d))) * Qpow 10 (d_exp d))%Q.

(* ------------------------------------------------------------------ *)
(** ** [int / int]: true division *)
(* ------------------------------------------------------------------ *)

(** An integer as an (unnormalised) binary float: exact. *)
Definition SF_of_Z (z : Z) : spec_float :=
  match z with
  | Z0 => S754_zero false
  | Zpos p => S754_finite false p 0
  | Zneg p => S754_finite true p 0
  end.

Definition float_of_SF (x : spec_float) : result float :=
  match x with
  | S754_zero s => Ok (mkfloat s 0 0)
  | S754_finite s m e => Ok (mkfloat s (Npos m) e)
  | S754_infinity _ => Raise OverflowError
  | S754_nan => Raise ValueError
  end.

(** [operator.truediv] on two ints: the quotient correctly rounded
    (to nearest, ties to even) to binary64, [ZeroDivisionError] for a
    zero divisor and [OverflowError] when the rounded quotient is too
    large for a float.  [SFdiv 53 1024] is the standard library's
    specification of binary64 division; it rounds the exact quotient of
    the two dyadics it is given. *)
Definition int_truediv (a b : Z) : result float :=
  if b =? 0 then Raise ZeroDivisionError
  else float_of_SF (SFdiv 53 1024 (SF_of_Z a) (SF_of_Z b)).

Definition two54 : Z := 18014398509481984.

(** [operator.mod] on two ints: the remainder has the sign of the
    divisor, as [Z.modulo]. *)
Definition int_mod (a b : Z) : result Z :=
  if b =? 0 then Raise ZeroDivisionError else Ok (a mod b).

(* ------------------------------------------------------------------ *)
(** ** [decimal.Decimal] arithmetic in the default context *)
(* ------------------------------------------------------------------ *)

(** The default context: [prec=28], [rounding=ROUND_HALF_EVEN],
    [Emin=-999999], [Emax=999999], [clamp=0]; [InvalidOperation],
    [DivisionByZero] and [Overflow] are trapped (raised), the other
    signals only set flags and are not modelled. *)
Module Dec.

Definition prec : Z := 28.
Definition Emax : Z := 999999.
Definition Emin : Z := -999999.
Definition Etiny : Z := Emin - prec + 1.
Definition Etop : Z := Emax - prec + 1.

(** [len(str(c))]: the number of decimal digits, 1 for zero. *)
Definition ndigits (c : Z) : Z :=
  Z.of_nat (String.length (NilZero.string_of_uint (N.to_uint (Z.to_N c)))).

(** [Decimal.adjusted]. *)
Definition adjusted (d : decimal) : Z :=
  d_exp d + ndigits (Z.of_N (d_int d)) - 1.

(** [_round_half_even] on the coefficient [c] whose last [k > 0] digits
    are dropped: does the kept part have to be incremented? *)
Definition round_half_even (c k : Z) : bool :=
  let q := c / pow10 k in
  let r := c mod pow10 k in
  let half := 5 * pow10 (k - 1) in
  if (r =? half) && Z.even q then false else half <=? r.

(** [Decimal._fix]: round to the context's precision, keep the exponent
    in range. *)
Definition _fix (d : decimal) : result decimal :=
  let c := Z.of_N (d_int d) in
  let e := d_exp d in
  if c =? 0 then
    Ok (mkdec (d_sign d) 0 (Z.min (Z.max e Etiny) Emax))
  else
    let exp_min := ndigits c + e - prec in
    if Etop <? exp_min then Raise Overflow
    else
      let exp_min := if exp_min <? Etiny then Etiny else exp_min in
      if e <? exp_min then
        let digits := ndigits c + e - exp_min in
        let '(c, e) := if digits <? 0 then (1, exp_min - 1) else (c, e) in
        let changed := round_half_even c (exp_min - e) in
        let coeff := c / pow10 (exp_min - e) in
        let '(coeff, exp_min) :=
          if changed then
            let coeff := coeff + 1 in
            if prec <? ndigits coeff then (coeff / 10, exp_min + 1)
            else (coeff, exp_min)
          else (coeff, exp_min) in
        if Etop <? exp_min then Raise Overflow
        else Ok (mkdec (d_sign d) (Z.to_N coeff) exp_min)
      else Ok d.

(** [Decimal(n)] for an int and [Decimal.from_float]: both exact. *)
Definition of_Z (n : Z) : decimal := mkdec (n <? 0) (Z.abs_N n) 0.

Fixpoint strip_twos (fuel : nat) (n k : Z) : Z * Z :=
  match fuel with
  | O => (n, k)
  | S fuel' =>
      if (0 <? k) && Z.even n then strip_twos fuel' (n / 2) (k - 1)
      else (n, k)
  end.

Definition of_float (f : float) : decimal :=
  let m := Z.of_N (f_mant f) in
  if m =? 0 then mkdec (f_sign f) 0 0
  else if 0 <=? f_exp f then mkdec (f_sign f) (Z.to_N (m * pow2 (f_exp f))) 0
  else
    let '(n, k) := strip_twos (Z.to_nat (- f_exp f)) m (- f_exp f) in
    mkdec (f_sign f) (Z.to_N (n * 5 ^ k)) (- k).

(** [__neg__], [__abs__]. *)
Definition neg (d : decimal) : result decimal :=
  if (d_int d =? 0)%N then _fix (mkdec false (d_int d) (d_exp d))
  else _fix (mkdec (negb (d_sign d)) (d_int d) (d_exp d)).

Definition abs (d : decimal) : result decimal :=
  _fix (mkdec false (d_int d) (d_exp d)).

(** [__add__]: the exact sum at the smaller exponent, then [_fix].  A
    zero sum of two nonzero operands is positive; a sum of two zeros is
    negative only when both are. *)
Definition add (x y : decimal) : result decimal :=
  let exp := Z.min (d_exp x) (d_exp y) in
  let vx := signed (d_sign x) (Z.of_N (d_int x) * pow10 (d_exp x - exp)) in
  let vy := signed (d_sign y) (Z.of_N (d_int y) * pow10 (d_exp y - exp)) in
  let z := vx + vy in
  let sign :=
    if z =? 0 then
      if (d_int x =? 0)%N && (d_int y =? 0)%N then d_sign x && d_sign y
      else false
    else z <? 0 in
  _fix (mkdec sign (Z.abs_N z) exp).

(** [__sub__]: [self + other.copy_negate()]. *)
Definition sub (x y : decimal) : result decimal :=
  add x (mkdec (negb (d_sign y)) (d_int y) (d_exp y)).

(** [__mul__]. *)
Definition mul (x y : decimal) : result decimal :=
  _fix (mkdec (xorb (d_sign x) (d_sign y)) (d_int x * d_int y) (d_exp x + d_exp y)).

(** The loop of [__truediv__] that brings an exact quotient as close to
    the ideal exponent as its trailing zeros allow. *)
Fixpoint strip_zeros (fuel : nat) (coeff exp ideal_exp : Z) : Z * Z :=
  match fuel with
  | O => (coeff, exp)
  | S fuel' =>
      if (exp <? ideal_exp) && (coeff mod 10 =? 0)
      then strip_zeros fuel' (coeff / 10) (exp + 1) ideal_exp
      else (coeff, exp)
  end.

(** [__truediv__]. *)
Definition truediv (x y : decimal) : result decimal :=
  let sign := xorb (d_sign x) (d_sign y) in
  let cx := Z.of_N (d_int x) in
  let cy := Z.of_N (d_int y) in
  if cy =? 0 then
    if cx =? 0 then Raise InvalidOperation else Raise DivisionByZero
  else if cx =? 0 then
    _fix (mkdec sign 0 (d_exp x - d_exp y))
  else
    let shift := ndigits cy - ndigits cx + prec + 1 in
    let exp := d_exp x - d_exp y - shift in
    let '(coeff, remainder) :=
      if 0 <=? shift then Z.div_eucl (cx * pow10 shift) cy
      else Z.div_eucl cx (cy * pow10 (- shift)) in
    let '(coeff, exp) :=
      if negb (remainder =? 0) then
        ((if coeff mod 5 =? 0 then coeff + 1 else coeff), exp)
      else
        let ideal_exp := d_exp x - d_exp y in
        strip_zeros (Z.to_nat (ideal_exp - exp)) coeff exp ideal_exp in
    _fix (mkdec sign (Z.to_N coeff) exp).

(** [__mod__], through [_divide]: the remainder has the sign of the
    dividend; a quotient of more than [prec] digits is an
    [InvalidOperation] (DivisionImpossible). *)
Definition mod_ (x y : decimal) : result decimal :=
  let cx := Z.of_N (d_int x) in
  let cy := Z.of_N (d_int y) in
  if cy =? 0 then Raise InvalidOperation
  else
    let ideal_exp := Z.min (d_exp x) (d_exp y) in
    let expdiff := adjusted x - adjusted y in
    if (cx =? 0) || (expdiff <=? -2) then
      _fix (mkdec (d_sign x) (Z.to_N (cx * pow10 (d_exp x - ideal_exp))) ideal_exp)
    else if expdiff <=? prec then
      let ax := cx * pow10 (d_exp x - ideal_exp) in
      let ay := cy * pow10 (d_exp y - ideal_exp) in
      let '(q, r) := Z.div_eucl ax ay in
      if q <? pow10 prec then _fix (mkdec (d_sign x) (Z.to_N r) ideal_exp)
      else Raise InvalidOperation
    else Raise InvalidOperation.

End Dec.

(* ================================================================== *)
(** * Python objects *)
(* ================================================================== *)

(** The objects the module handles: plain numbers, the two tracking
    wrappers, and the seven namedtuple classes of lines 19-26.  A
    wrapper is an [int] (a [Decimal]) with one more attribute,
    [operations], which is [None] or any object.  A namedtuple has
    exactly the fields of its class, so a node of the wrong arity
    cannot be built.  ([mod] is written [mod_], the name being taken
    by the notation of [Z.modulo].) *)
#[local] Set Warnings "-register-all".

Inductive value : Type :=
  | PyInt (n : Z)
  | PyFloat (f : float)
  | PyDecimal (d : decimal)
  | IntTrackObj (n : Z) (operations : option value)
  | DecimalTrackObj (d : decimal) (operations : option value)
  | abs (lhs : value)
  | neg (lhs : value)
  | add (lhs rhs : value)
  | div (lhs rhs : value)
  | mod_ (lhs rhs : value)
  | mul (lhs rhs : value)
  | sub (lhs rhs : value).

(** [hasattr(v, 'operations')] and [v.operations]. *)
Definition hasattr_operations (v : value) : bool :=
  match v with
  | IntTrackObj _ _ | DecimalTrackObj _ _ => true
  | _ => false
  end.

Definition operations (v : value) : option value :=
  match v with
  | IntTrackObj _ o | DecimalTrackObj _ o => o
  | _ => None
  end.

(** [isinstance(v, tuple)], [isinstance(v, Decimal)], [isinstance(v, int)]. *)
Definition isinstance_tuple (v : value) : bool :=
  match v with
  | abs _ | neg _ | add _ _ | div _ _ | mod_ _ _ | mul _ _ | sub _ _ => true
  | _ => false
  end.

Definition isinstance_Decimal (v : value) : bool :=
  match v with
  | PyDecimal _ | DecimalTrackObj _ _ => true
  | _ => false
  end.


(** [v.__class__.__name__] and the items of a tuple. *)
Definition class_name (v : value) : string :=
  match v with
  | PyInt _ => "int"
  | PyFloat _ => "float"
  | PyDecimal _ => "Decimal"
  | IntTrackObj _ _ => "IntTrack"
  | DecimalTrackObj _ _ => "DecimalTrack"
  | abs _ => "abs"
  | neg _ => "neg"
  | add _ _ => "add"
  | div _ _ => "div"
  | mod_ _ _ => "mod"
  | mul _ _ => "mul"
  | sub _ _ => "sub"
  end.

Definition items (v : value) : list value :=
  match v with
  | abs l | neg l => [l]
  | add l r | div l r | mod_ l r | mul l r | sub l r => [l; r]
  | _ => []
  end.

(** [int(v)]: the value of an int, a float or a Decimal truncated
    toward zero; a tuple is a [TypeError].  On the numbers of this
    development, which are finite, [int] therefore never raises; on an
    infinity or a NaN Python's [int] raises [OverflowError] or
    [ValueError], and no statement below is about such an operand. *)
Definition int (v : value) : result Z :=
  match v with
  | PyInt n | IntTrackObj n _ => Ok n
  | PyFloat f => Ok (float_trunc f)
  | PyDecimal d | DecimalTrackObj d _ => Ok (decimal_trunc d)
  | _ => Raise TypeError
  end.

(** [Decimal(v)]: exact for every number; a tuple must be a triple
    (sign, digits, exponent), which no node is: [ValueError]. *)
Definition Decimal (v : value) : result decimal :=
  match v with
  | PyInt n | IntTrackObj n _ => Ok (Dec.of_Z n)
  | PyFloat f => Ok (Dec.of_float f)
  | PyDecimal d | DecimalTrackObj d _ => Ok d
  | _ => Raise ValueError
  end.

(** ** Equality ([==]) *)

(** The exact rational a number object denotes. *)
Definition number (v : value) : option Q :=
  match v with
  | PyInt n | IntTrackObj n _ => Some (inject_Z n)
  | PyFloat f => Some (float_Q f)
  | PyDecimal d | DecimalTrackObj d _ => Some (decimal_Q d)
  | _ => None
  end.

(** [v == w].  Numbers of every kind compare by exact value; the
    wrappers inherit [__eq__] from [int] and [Decimal], so [operations]
    takes no part.  The nodes inherit [tuple.__eq__]: same length and
    equal items, whatever the two classes.  A number never equals a
    tuple. *)
Fixpoint py_eq (v w : value) {struct v} : bool :=
  match v with
  | abs l | neg l =>
      match items w with
      | [l'] => py_eq l l'
      | _ => false
      end
  | add l r | div l r | mod_ l r | mul l r | sub l r =>
      match items w with
      | [l'; r'] => py_eq l l' && py_eq r r'
      | _ => false
      end
  | _ =>
      match number v, number w with
      | Some p, Some q => Qeq_bool p q
      | _, _ => false
      end
  end.

(** Equality of nodes as the specification words it: the same kind and
    equal operands, recursively; numbers compare as [py_eq] does. *)
Fixpoint spec_node_eq (v w : value) {struct v} : bool :=
  match v, w with
  | abs l, abs l' | neg l, neg l' => spec_node_eq l l'
  | add l r, add l' r' | div l r, div l' r' | mod_ l r, mod_ l' r'
  | mul l r, mul l' r' | sub l r, sub l' r' =>
      spec_node_eq l l' && spec_node_eq r r'
  | _, _ =>
      if isinstance_tuple v || isinstance_tuple w then false else py_eq v w
  end.

(* ------------------------------------------------------------------ *)
(** ** The [operator] module *)
(* ------------------------------------------------------------------ *)

(** The functions of [operator] act on the operands' own arithmetic.
    [binary_op] always calls them on two operands of the same type
    [type_], so a numeric type is given by its seven operations. *)
Class Number (T : Type) : Type := {
  num_abs : T -> result value;
  num_neg : T -> result value;
  num_add : T -> T -> result value;
  num_mod : T -> T -> result value;
  num_mul : T -> T -> result value;
  num_sub : T -> T -> result value;
  num_truediv : T -> T -> result value
}.

Definition wrap {A : Type} (c : A -> value) (r : result A) : result value :=
  bind r (fun a => Ok (c a)).

(** [int]: exact, unbounded; [/] is the true division, a float. *)
#[export] Instance Number_int : Number Z := {
  num_abs := fun a => Ok (PyInt (Z.abs a));
  num_neg := fun a => Ok (PyInt (- a));
  num_add := fun a b => Ok (PyInt (a + b));
  num_mod := fun a b => wrap PyInt (int_mod a b);
  num_mul := fun a b => Ok (PyInt (a * b));
  num_sub := fun a b => Ok (PyInt (a - b));
  num_truediv := fun a b => wrap PyFloat (int_truediv a b)
}.

#[export] Instance Number_Decimal : Number decimal := {
  num_abs := fun a => wrap PyDecimal (Dec.abs a);
  num_neg := fun a => wrap PyDecimal (Dec.neg a);
  num_add := fun a b => wrap PyDecimal (Dec.add a b);
  num_mod := fun a b => wrap PyDecimal (Dec.mod_ a b);
  num_mul := fun a b => wrap PyDecimal (Dec.mul a b);
  num_sub := fun a b => wrap PyDecimal (Dec.sub a b);
  num_truediv := fun a b => wrap PyDecimal (Dec.truediv a b)
}.

Module operator.
Definition abs {T : Type} `{Number T} : T -> result value := num_abs.
Definition neg {T : Type} `{Number T} : T -> result value := num_neg.
Definition add {T : Type} `{Number T} : T -> T -> result value := num_add.
Definition mod_ {T : Type} `{Number T} : T -> T -> result value := num_mod.
Definition mul {T : Type} `{Number T} : T -> T -> result value := num_mul.
Definition sub {T : Type} `{Number T} : T -> T -> result value := num_sub.
Definition truediv {T : Type} `{Number T} : T -> T -> result value := num_truediv.
End operator.

(* ------------------------------------------------------------------ *)
(** ** [str] and [repr] *)
(* ------------------------------------------------------------------ *)

Local Open Scope string_scope.

(** [str(n)] for an int, and the digits of a coefficient. *)
Definition string_of_Z (z : Z) : string := NilZero.string_of_int (Z.to_int z).
Definition digits_of (c : N) : string := NilZero.string_of_uint (N.to_uint c).

Fixpoint zeros (n : nat) : string :=
  match n with
  | O => ""
  | S n' => "0" ++ zeros n'
  end.

(** ["%+d" % z]. *)
Definition signed_digits (z : Z) : string :=
  (if (z <? 0)%Z then "-" else "+") ++ digits_of (Z.abs_N z).

(** [Decimal.__str__]: plain notation when the exponent is not positive
    and there are fewer than six zeros after the point, scientific
    notation otherwise. *)
Definition decimal_str (d : decimal) : string :=
  let sign := if d_sign d then "-" else "" in
  let int_ := digits_of (d_int d) in
  let len := Z.of_nat (String.length int_) in
  let leftdigits := d_exp d + len in
  let dotplace :=
    if ((d_exp d <=? 0) && (-6 <? leftdigits))%Z then leftdigits else 1 in
  let '(intpart, fracpart) :=
    if (dotplace <=? 0)%Z then
      ("0", "." ++ zeros (Z.to_nat (- dotplace)) ++ int_)
    else if (len <=? dotplace)%Z then
      (int_ ++ zeros (Z.to_nat (dotplace - len)), "")
    else
      (substring 0 (Z.to_nat dotplace) int_,
       "." ++ substring (Z.to_nat dotplace) (Z.to_nat (len - dotplace)) int_) in
  let exp :=
    if (leftdigits =? dotplace)%Z then ""
    else "E" ++ signed_digits (leftdigits - dotplace) in
  sign ++ intpart ++ fracpart ++ exp.

(** [str.format] for templates whose only fields are [{}]: each field
    takes the next argument ([IndexError] when there is none left); a
    brace that does not belong to a field is a [ValueError].  The
    arguments are inserted as they are. *)
Fixpoint format (template : string) (args : list string) : result string :=
  match template with
  | EmptyString => Ok ""
  | String c rest =>
      if Ascii.eqb c "{" then
        match rest with
        | String c' rest' =>
            if Ascii.eqb c' "}" then
              match args with
              | [] => Raise IndexError
              | a :: args' => bind (format rest' args') (fun r => Ok (a ++ r))
              end
            else Raise ValueError
        | EmptyString => Raise ValueError
        end
      else if Ascii.eqb c "}" then Raise ValueError
      else bind (format rest args) (fun r => Ok (String c r))
  end.

(** [d[key]] on a dict given by its items. *)
Fixpoint getitem (d : list (string * string)) (key : string) : result string :=
  match d with
  | [] => Raise KeyError
  | (k, v) :: d' => if String.eqb k key then Ok v else getitem d' key
  end.

Section Str.

(** [repr] of a float (its shortest decimal form that reads back as the
    same float) is left as a parameter: nothing below depends on which
    digits it prints. *)
Variable float_repr : float -> string.

(** [repr(v)]; a wrapper inherits it from [int] or [Decimal], a
    namedtuple prints its class and its fields. *)
Fixpoint py_repr (v : value) : string :=
  match v with
  | PyInt n | IntTrackObj n _ => string_of_Z n
  | PyFloat f => float_repr f
  | PyDecimal d | DecimalTrackObj d _ => "Decimal('" ++ decimal_str d ++ "')"
  | abs l | neg l => class_name v ++ "(lhs=" ++ py_repr l ++ ")"
  | add l r | div l r | mod_ l r | mul l r | sub l r =>
      class_name v ++ "(lhs=" ++ py_repr l ++ ", rhs=" ++ py_repr r ++ ")"
  end.

(** [str(v)]: [Decimal] has a [__str__] of its own, the other classes
    print their [repr]. *)
Definition str (v : value) : string :=
  match v with
  | PyDecimal d | DecimalTrackObj d _ => decimal_str d
  | _ => py_repr v
  end.

End Str.

(* ================================================================== *)
(** * The module [inttrack] *)
(* ================================================================== *)

(** Lines 29-38. *)
Definition op_format : list (string * string) :=
  [ ("abs", "abs({})");
    ("neg", "-{}");
    ("add", "{} + {}");
    ("div", "{} / {}");
    ("mod", "{} % {}");
    ("mul", "{} * {}");
    ("sub", "{} - {}") ].

Section Rendering.

Variable float_repr : float -> string.

(** The last line of [expression]: the template of the node's class is
    looked up, the generator of the operands' renderings is consumed,
    the template is filled and the whole is put in parentheses. *)
Definition format_node (operations : value)
    (subexpressions : result (list string)) : result string :=
  (template <- getitem op_format (class_name operations) ;;
   args <- subexpressions ;;
   body <- format template args ;;
   format "({})" [body])%py.

(** Lines 88-96.  [callback] is [None] or a function on the numeric
    values ("use callback to change the numeric values"). *)
Fixpoint expression (operations : value) (callback : option (value -> value))
    {struct operations} : result string :=
  match operations with
  | abs lhs | neg lhs =>
      format_node operations
        (l <- expression lhs callback ;; Ok [l])%py
  | add lhs rhs | div lhs rhs | mod_ lhs rhs | mul lhs rhs | sub lhs rhs =>
      format_node operations
        (l <- expression lhs callback ;;
         r <- expression rhs callback ;;
         Ok [l; r])%py
  | _ =>
      match callback with
      | Some callback => Ok (str float_repr (callback operations))
      | None => Ok (str float_repr operations)
      end
  end.

(** The same function when the callback is any Python callable: it may
    read and change the caller's state [S], which is threaded through
    the calls in the order the generator makes them. *)
Section Effects.
Variable S : Type.

Definition format_node_st (operations : value)
    (subexpressions : S -> result (list string) * S) (s : S)
    : result string * S :=
  match getitem op_format (class_name operations) with
  | Raise e => (Raise e, s)
  | Ok template =>
      let '(args, s') := subexpressions s in
      ((args <- args ;;
        body <- format template args ;;
        format "({})" [body])%py, s')
  end.

Fixpoint expression_st (operations : value)
    (callback : option (value -> S -> value * S)) (s : S)
    {struct operations} : result string * S :=
  match operations with
  | abs lhs | neg lhs =>
      format_node_st operations
        (fun s =>
           let '(l, s1) := expression_st lhs callback s in
           ((l <- l ;; Ok [l])%py, s1)) s
  | add lhs rhs | div lhs rhs | mod_ lhs rhs | mul lhs rhs | sub lhs rhs =>
      format_node_st operations
        (fun s =>
           match expression_st lhs callback s with
           | (Raise e, s1) => (Raise e, s1)
           | (Ok l, s1) =>
               let '(r, s2) := expression_st rhs callback s1 in
               ((r <- r ;; Ok [l; r])%py, s2)
           end) s
  | _ =>
      match callback with
      | Some callback =>
          let '(v, s') := callback operations s in (Ok (str float_repr v), s')
      | None => (Ok (str float_repr operations), s)
      end
  end.

End Effects.

(** The renderer as the specification words it: a literal through the
    formatting function or its default string form, a node from its
    operands' renderings and the template of its kind, in parentheses. *)
Definition render_literal (v : value) (callback : option (value -> value))
    : string :=
  match callback with
  | Some f => str float_repr (f v)
  | None => str float_repr v
  end.

Fixpoint render_spec (v : value) (callback : option (value -> value))
    : string :=
  match v with
  | abs x => "(" ++ "abs(" ++ render_spec x callback ++ ")" ++ ")"
  | neg x => "(" ++ "-" ++ render_spec x callback ++ ")"
  | add x y =>
      "(" ++ render_spec x callback ++ " + " ++ render_spec y callback ++ ")"
  | sub x y =>
      "(" ++ render_spec x callback ++ " - " ++ render_spec y callback ++ ")"
  | mul x y =>
      "(" ++ render_spec x callback ++ " * " ++ render_spec y callback ++ ")"
  | div x y =>
      "(" ++ render_spec x callback ++ " / " ++ render_spec y callback ++ ")"
  | mod_ x y =>
      "(" ++ render_spec x callback ++ " % " ++ render_spec y callback ++ ")"
  | _ => render_literal v callback
  end.

End Rendering.

(** A formatting function that is a fixed function of the literal, seen
    as a callable on the caller's state. *)
Definition pure_callback {S : Type} (callback : option (value -> value))
    : option (value -> S -> value * S) :=
  option_map (fun f v s => (f v, s)) callback.

Local Close Scope string_scope.

(** ** The tracking wrappers *)

(** [IntTrack(value, operations)], lines 100-103: [int.__new__] converts
    [value] as [int(value)] does, then the attribute is set. *)
Definition IntTrack (value_ : value) (operations : option value) : result value :=
  (n <- int value_ ;; Ok (IntTrackObj n operations))%py.

(** [DecimalTrack(value, operations)], lines 127-130. *)
Definition DecimalTrack (value_ : value) (operations : option value) : result value :=
  (d <- Decimal value_ ;; Ok (DecimalTrackObj d operations))%py.

(** Lines 41-44. *)
Definition track (number : value) : result value :=
  if isinstance_Decimal number then DecimalTrack number None
  else IntTrack number None.

(** Lines 47-56: [partial(function, *args)] fixes the first arguments
    of [function]; the returned [bind] is a plain function, so as a
    class attribute it receives [self] as its next argument.  With
    curried functions this is the application itself. *)
Definition partial {A : Type} (function : A) : A := function.

(** [bool(v)]: a number is false when it is zero; a tuple is false when
    it is empty, which no node is. *)
Definition truth (v : value) : bool :=
  match v with
  | PyInt n | IntTrackObj n _ => negb (n =? 0)%Z
  | PyFloat f => negb (f_mant f =? 0)%N
  | PyDecimal d | DecimalTrackObj d _ => negb (d_int d =? 0)%N
  | _ => true
  end.

(** Lines 60-63 (and 70-73, 75-78),
    [getattr(operand, 'operations', None) or operand]: the operand's
    recorded tree when it has the attribute and the tree is true (so
    not [None]; every node is true), the operand itself otherwise. *)
Definition operations_of (operand : value) : value :=
  match hasattr_operations operand, operations operand with
  | true, Some ops => if truth ops then ops else operand
  | _, _ => operand
  end.

(** Lines 59-66. *)
Definition unary_op {T : Type} (type_ : value -> result T)
    (operator : T -> result value) (operation : value -> value)
    (lhs : value) : result value :=
  let lhs_operations := operations_of lhs in
  (a <- type_ lhs ;;
   result <- operator a ;;
   IntTrack result (Some (operation lhs_operations)))%py.

(** Lines 69-81. *)
Definition binary_op {T : Type} (type_ : value -> result T)
    (operator : T -> T -> result value) (operation : value -> value -> value)
    (lhs rhs : value) : result value :=
  let lhs_operations := operations_of lhs in
  let rhs_operations := operations_of rhs in
  (a <- type_ lhs ;;
   b <- type_ rhs ;;
   result <- operator a b ;;
   IntTrack result (Some (operation lhs_operations rhs_operations)))%py.

(** Lines 84-85. *)
Definition binary_rop {T : Type} (type_ : value -> result T)
    (operator : T -> T -> result value) (operation : value -> value -> value)
    (rhs lhs : value) : result value :=
  binary_op type_ operator operation lhs rhs.

(** Lines 105-118, under Python 3 (where [/] is [__truediv__]; the
    [__div__] of lines 120-122 exists under Python 2 only). *)
Module IntTrack.
Definition __abs__ := partial (unary_op int operator.abs abs).
Definition __neg__ := partial (unary_op int operator.neg neg).

Definition __add__ := partial (binary_op int operator.add add).
Definition __mod__ := partial (binary_op int operator.mod_ mod_).
Definition __mul__ := partial (binary_op int operator.mul mul).
Definition __sub__ := partial (binary_op int operator.sub sub).
Definition __truediv__ := partial (binary_op int operator.truediv div).

Definition __radd__ := partial (binary_rop int operator.add add).
Definition __rmod__ := partial (binary_rop int operator.mod_ mod_).
Definition __rmul__ := partial (binary_rop int operator.mul mul).
Definition __rsub__ := partial (binary_rop int operator.sub sub).
Definition __rtruediv__ := partial (binary_rop int operator.truediv div).
End IntTrack.

(** Lines 132-145. *)
Module DecimalTrack.
Definition __abs__ := partial (unary_op Decimal operator.abs abs).
Definition __neg__ := partial (unary_op Decimal operator.neg neg).

Definition __add__ := partial (binary_op Decimal operator.add add).
Definition __mod__ := partial (binary_op Decimal operator.mod_ mod_).
Definition __mul__ := partial (binary_op Decimal operator.mul mul).
Definition __sub__ := partial (binary_op Decimal operator.sub sub).
Definition __truediv__ := partial (binary_op Decimal operator.truediv div).

Definition __radd__ := partial (binary_rop Decimal operator.add add).
Definition __rmod__ := partial (binary_rop Decimal operator.mod_ mod_).
Definition __rmul__ := partial (binary_rop Decimal operator.mul mul).
Definition __rsub__ := partial (binary_rop Decimal operator.sub sub).
Definition __rtruediv__ := partial (binary_op Decimal operator.truediv div).
End DecimalTrack.

(** ** Operators on objects *)

(** The binary operators the wrappers overload, and the node class each
    one records. *)
Inductive binop : Type := Add | Sub | Mul | TrueDiv | Mod.

Definition node_of (o : binop) : value -> value -> value :=
  match o with
  | Add => add
  | Sub => sub
  | Mul => mul
  | TrueDiv => div
  | Mod => mod_
  end.

Inductive kind : Type := IntKind | DecimalKind.

(** The function of [operator] behind each binary operator. *)
Definition arith {T : Type} `{Number T} (o : binop) : T -> T -> result value :=
  match o with
  | Add => operator.add
  | Sub => operator.sub
  | Mul => operator.mul
  | TrueDiv => operator.truediv
  | Mod => operator.mod_
  end.

(** [self.__op__(other)] and [self.__rop__(other)] in each class. *)
Definition method (k : kind) (o : binop) : value -> value -> result value :=
  match k, o with
  | IntKind, Add => IntTrack.__add__
  | IntKind, Sub => IntTrack.__sub__
  | IntKind, Mul => IntTrack.__mul__
  | IntKind, TrueDiv => IntTrack.__truediv__
  | IntKind, Mod => IntTrack.__mod__
  | DecimalKind, Add => DecimalTrack.__add__
  | DecimalKind, Sub => DecimalTrack.__sub__
  | DecimalKind, Mul => DecimalTrack.__mul__
  | DecimalKind, TrueDiv => DecimalTrack.__truediv__
  | DecimalKind, Mod => DecimalTrack.__mod__
  end.

Definition rmethod (k : kind) (o : binop) : value -> value -> result value :=
  match k, o with
  | IntKind, Add => IntTrack.__radd__
  | IntKind, Sub => IntTrack.__rsub__
  | IntKind, Mul => IntTrack.__rmul__
  | IntKind, TrueDiv => IntTrack.__rtruediv__
  | IntKind, Mod => IntTrack.__rmod__
  | DecimalKind, Add => DecimalTrack.__radd__
  | DecimalKind, Sub => DecimalTrack.__rsub__
  | DecimalKind, Mul => DecimalTrack.__rmul__
  | DecimalKind, TrueDiv => DecimalTrack.__rtruediv__
  | DecimalKind, Mod => DecimalTrack.__rmod__
  end.

(** The class of a tracked value. *)
Definition kind_of (v : value) : option kind :=
  match v with
  | IntTrackObj _ _ => Some IntKind
  | DecimalTrackObj _ _ => Some DecimalKind
  | _ => None
  end.

(** [a OP b] when Python hands the operation to a wrapper.  A wrapper
    on the left answers with [__op__], which never declines.  With a
    plain number on the left, the wrapper on the right answers with
    [__rop__] when its class derives from the left operand's class (an
    int before an [IntTrack], a Decimal before a [DecimalTrack]) or
    when the left operand's own method declines (an int or a float
    before a [DecimalTrack]); a float or a Decimal before an
    [IntTrack] is answered by the builtin arithmetic of the left
    operand, and no method of the module gives the result: [None].  A
    node on the left is a tuple, which has no numeric method: the
    wrapper on the right answers with [__rop__] (before any tuple
    concatenation or repetition is tried), and refuses the node. *)
Definition binary_expr (o : binop) (a b : value) : option (result value) :=
  match kind_of a with
  | Some k => Some (method k o a b)
  | None =>
      match kind_of b with
      | Some k =>
          match a, k with
          | (PyFloat _ | PyDecimal _), IntKind => None
          | _, _ => Some (rmethod k o b a)
          end
      | None => None
      end
  end.

(** [-a] and [abs(a)] on a wrapper. *)
Definition neg_expr (a : value) : option (result value) :=
  match kind_of a with
  | Some IntKind => Some (IntTrack.__neg__ a)
  | Some DecimalKind => Some (DecimalTrack.__neg__ a)
  | None => None
  end.

Definition abs_expr (a : value) : option (result value) :=
  match kind_of a with
  | Some IntKind => Some (IntTrack.__abs__ a)
  | Some DecimalKind => Some (DecimalTrack.__abs__ a)
  | None => None
  end.

(** [v.operations = o] on a wrapper. *)
Definition set_operations (v : value) (o : option value) : value :=
  match v with
  | IntTrackObj n _ => IntTrackObj n o
  | DecimalTrackObj d _ => DecimalTrackObj d o
  | _ => v
  end.

(** ** Notions of the specification *)







(** ** Trees as lists of literals *)

(** The literals of a tree, in the order [expression] meets them. *)
Fixpoint leaves (v : value) : list value :=
  match v with
  | abs l | neg l => leaves l
  | add l r | div l r | mod_ l r | mul l r | sub l r => leaves l ++ leaves r
  | _ => [v]
  end.

(** The tree with every literal replaced by its image under [f]. *)
Fixpoint map_leaves (f : value -> value) (v : value) : value :=
  match v with
  | abs l => abs (map_leaves f l)
  | neg l => neg (map_leaves f l)
  | add l r => add (map_leaves f l) (map_leaves f r)
  | div l r => div (map_leaves f l) (map_leaves f r)
  | mod_ l r => mod_ (map_leaves f l) (map_leaves f r)
  | mul l r => mul (map_leaves f l) (map_leaves f r)
  | sub l r => sub (map_leaves f l) (map_leaves f r)
  | _ => f v
  end.




(* ================================================================== *)
(** * The module's own tests and doctest *)
(* ================================================================== *)

(** The model of [decimal] on a few values. *)
Example Dec_add_example :
  Dec.add (mkdec false 15 (-1)) (mkdec false 25 (-2)) = Ok (mkdec false 175 (-2)).
Proof. vm_compute. reflexivity. Qed.

Example Dec_truediv_example :
  Dec.truediv (Dec.of_Z 7) (Dec.of_Z 3)
  = Ok (mkdec false 2333333333333333333333333333 (-27)).
Proof. vm_compute. reflexivity. Qed.

Example Dec_truediv_exact_example :
  Dec.truediv (Dec.of_Z 10) (Dec.of_Z 4) = Ok (mkdec false 25 (-1)).
Proof. vm_compute. reflexivity. Qed.

Example Dec_mod_example :
  Dec.mod_ (Dec.of_Z (-7)) (Dec.of_Z 3) = Ok (mkdec true 1 0).
Proof. vm_compute. reflexivity. Qed.

Example Dec_of_float_example :
  Dec.of_float (mkfloat false 5 (-1)) = mkdec false 25 (-1).
Proof. vm_compute. reflexivity. Qed.

Example decimal_str_examples :
  decimal_str (mkdec false 175 (-2)) = "1.75"%string /\
  decimal_str (mkdec true 1 3) = "-1E+3"%string /\
  decimal_str (mkdec false 5 (-9)) = "5E-9"%string /\
  decimal_str (mkdec false 0 (-2)) = "0.00"%string.
Proof. vm_compute. repeat split. Qed.

(** The doctest of lines 4-9. *)
Example doctest_module (float_repr : float -> string) :
  exists r1 r2 tree,
    binary_expr Mul (IntTrackObj 5 None) (PyInt 2) = Some (Ok r1) /\
    binary_expr Sub r1 (PyInt 3) = Some (Ok r2) /\
    py_eq r2 (PyInt 7) = true /\
    operations r2 = Some tree /\
    py_repr float_repr tree = "sub(lhs=mul(lhs=5, rhs=2), rhs=3)"%string /\
    expression float_repr tree None = Ok "((5 * 2) - 3)"%string.
Proof.
  exists (IntTrackObj 10 (Some (mul (IntTrackObj 5 None) (PyInt 2)))).
  exists (IntTrackObj 7
            (Some (sub (mul (IntTrackObj 5 None) (PyInt 2)) (PyInt 3)))).
  exists (sub (mul (IntTrackObj 5 None) (PyInt 2)) (PyInt 3)).
  repeat split.
Qed.

(** [test_unaryop], [test_binaryop], [test_decimal], [test_order]. *)
Example test_unaryop :
  exists r r',
    neg_expr (IntTrackObj 5 None) = Some (Ok r) /\
    py_eq r (PyInt (-5)) = true /\
    option_map (fun t => py_eq t (neg (PyInt 5))) (operations r) = Some true /\
    abs_expr (IntTrackObj (-5) None) = Some (Ok r') /\
    option_map (fun t => py_eq t (abs (PyInt (-5)))) (operations r') = Some true.
Proof.
  exists (IntTrackObj (-5) (Some (neg (IntTrackObj 5 None)))).
  exists (IntTrackObj 5 (Some (abs (IntTrackObj (-5) None)))).
  vm_compute. repeat split.
Qed.

Example test_binaryop :
  exists r r',
    binary_op int operator.mul mul (PyInt 5) (PyInt 3) = Ok r /\
    py_eq r (PyInt 15) = true /\
    operations r = Some (mul (PyInt 5) (PyInt 3)) /\
    binary_op int operator.add add r r = Ok r' /\
    operations r'
    = Some (add (mul (PyInt 5) (PyInt 3)) (mul (PyInt 5) (PyInt 3))).
Proof.
  exists (IntTrackObj 15 (Some (mul (PyInt 5) (PyInt 3)))).
  exists (IntTrackObj 30
            (Some (add (mul (PyInt 5) (PyInt 3)) (mul (PyInt 5) (PyInt 3))))).
  vm_compute. repeat split.
Qed.

Example test_decimal :
  exists r r' r'',
    neg_expr (DecimalTrackObj (Dec.of_Z 5) None) = Some (Ok r) /\
    py_eq r (PyInt (-5)) = true /\
    option_map (fun t => py_eq t (neg (PyInt 5))) (operations r) = Some true /\
    binary_op Decimal operator.mul mul (PyInt 5) (PyInt 3) = Ok r' /\
    py_eq r' (PyInt 15) = true /\
    operations r' = Some (mul (PyInt 5) (PyInt 3)) /\
    binary_op Decimal operator.add add r' r' = Ok r'' /\
    operations r''
    = Some (add (mul (PyInt 5) (PyInt 3)) (mul (PyInt 5) (PyInt 3))).
Proof.
  exists (IntTrackObj (-5) (Some (neg (DecimalTrackObj (Dec.of_Z 5) None)))).
  exists (IntTrackObj 15 (Some (mul (PyInt 5) (PyInt 3)))).
  exists (IntTrackObj 30
            (Some (add (mul (PyInt 5) (PyInt 3)) (mul (PyInt 5) (PyInt 3))))).
  vm_compute. repeat split.
Qed.

Example test_order :
  exists r r',
    binary_expr Mul (PyInt 4) (IntTrackObj 5 None) = Some (Ok r) /\
    option_map (fun t => py_eq t (mul (PyInt 4) (PyInt 5))) (operations r)
    = Some true /\
    binary_expr TrueDiv (IntTrackObj 7 None) (PyInt 3) = Some (Ok r') /\
    option_map (fun t => py_eq t (div (PyInt 7) (PyInt 3))) (operations r')
    = Some true.
Proof.
  exists (IntTrackObj 20 (Some (mul (PyInt 4) (IntTrackObj 5 None)))).
  exists (IntTrackObj 2 (Some (div (IntTrackObj 7 None) (PyInt 3)))).
  vm_compute. repeat split.
Qed.

(* ================================================================== *)
(** * Properties *)
(* ================================================================== *)

(** ** The result monad *)

Lemma bind_Ok {A B : Type} (a : A) (k : A -> result B) :
  bind (Ok a) k = k a.
Proof. reflexivity. Qed.

Lemma bind_Raise {A B : Type} (e : exn) (k : A -> result B) :
  bind (Raise e) k = Raise e.
Proof. reflexivity. Qed.

Lemma bind_inv_Ok {A B : Type} (c : result A) (k : A -> result B) (b : B) :
  bind c k = Ok b -> exists a, c = Ok a /\ k a = Ok b.
Proof.
  destruct c as [a | e]; simpl; intros H.
  - exists a. split; [reflexivity | exact H].
  - discriminate H.
Qed.


(** ** Strings *)

Lemma append_nil_r (s : string) : (s ++ "")%string = s.
Proof.
  induction s as [| c s IH]; simpl; [reflexivity | now rewrite IH].
Qed.

Lemma append_assoc (s t u : string) :
  ((s ++ t) ++ u)%string = (s ++ (t ++ u))%string.
Proof.
  induction s as [| c s IH]; simpl; [reflexivity | now rewrite IH].
Qed.

(** The seven templates, filled: the arguments are inserted whatever
    they contain. *)
Lemma format_unary_abs (a : string) :
  format "abs({})" [a] = Ok ("abs(" ++ a ++ ")")%string.
Proof. reflexivity. Qed.

Lemma format_unary_neg (a : string) :
  format "-{}" [a] = Ok ("-" ++ a)%string.
Proof. simpl. now rewrite append_nil_r. Qed.

Lemma format_binary (c : ascii) (a b : string) :
  Ascii.eqb c "{" = false -> Ascii.eqb c "}" = false ->
  format (String "{" (String "}" (String " " (String c " {}")))) [a; b]
  = Ok (a ++ " " ++ String c " " ++ b)%string.
Proof.
  intros Hl Hr. simpl. rewrite Hl, Hr. simpl. now rewrite append_nil_r.
Qed.

Lemma format_parens (body : string) :
  format "({})" [body] = Ok ("(" ++ body ++ ")")%string.
Proof. reflexivity. Qed.

Lemma expression_literal (float_repr : float -> string) (v : value)
    (callback : option (value -> value)) :
  isinstance_tuple v = false ->
  expression float_repr v callback
  = Ok (match callback with
        | Some f => str float_repr (f v)
        | None => str float_repr v
        end).
Proof.
  destruct v; simpl; intros H; try discriminate H; now destruct callback.
Qed.

Lemma format_node_unary (v : value) (template a body : string) :
  getitem op_format (class_name v) = Ok template ->
  format template [a] = Ok body ->
  format_node v (Ok [a]) = Ok ("(" ++ body ++ ")")%string.
Proof.
  intros Ht Hf. unfold format_node.
  now rewrite Ht, !bind_Ok, Hf, bind_Ok, format_parens.
Qed.

Lemma format_node_binary (v : value) (c : ascii) (a b : string) :
  getitem op_format (class_name v)
  = Ok (String "{" (String "}" (String " " (String c " {}")))) ->
  Ascii.eqb c "{" = false -> Ascii.eqb c "}" = false ->
  format_node v (Ok [a; b])
  = Ok ("(" ++ a ++ " " ++ String c " " ++ b ++ ")")%string.
Proof.
  intros Ht Hl Hr. unfold format_node.
  rewrite Ht, !bind_Ok, (format_binary c a b Hl Hr), bind_Ok, format_parens.
  f_equal. simpl. now rewrite !append_assoc.
Qed.

(** [expression] returns, and returns [render_spec]; the lemmas on the
    callback below rest on this. *)
Lemma expression_Ok (float_repr : float -> string) (v : value)
    (callback : option (value -> value)) :
  expression float_repr v callback = Ok (render_spec float_repr v callback).
Proof.
  induction v as
    [ n | f | d | n o | d o
    | l IHl | l IHl
    | l IHl r IHr | l IHl r IHr | l IHl r IHr | l IHl r IHr | l IHl r IHr ];
    try (simpl; now destruct callback);
    simpl; rewrite IHl, ?IHr, !bind_Ok.
  - rewrite (format_node_unary (abs l) _ _ _ eq_refl (format_unary_abs _)).
    f_equal. simpl. now rewrite !append_assoc.
  - now rewrite (format_node_unary (neg l) _ _ _ eq_refl (format_unary_neg _)).
  - now rewrite (format_node_binary _ "+") by reflexivity.
  - now rewrite (format_node_binary _ "/") by reflexivity.
  - now rewrite (format_node_binary _ "%") by reflexivity.
  - now rewrite (format_node_binary _ "*") by reflexivity.
  - now rewrite (format_node_binary _ "-") by reflexivity.
Qed.

(** C5.  The renderer never raises and returns what the specification
    describes: a literal is rendered by the formatting function when
    there is one and by its string form otherwise; a node is rendered
    from the renderings of its operands with the template of its kind
    ([abs(x)], [-x], [x + y], [x - y], [x * y], [x / y], [x % y]), and
    is put in parentheses at every level. *)
Theorem expression_renders_spec (float_repr : float -> string) (v : value)
    (callback : option (value -> value)) :
  expression float_repr v callback = Ok (render_spec float_repr v callback).
Proof.
  induction v as
    [ n | f | d | n o | d o
    | l IHl | l IHl
    | l IHl r IHr | l IHl r IHr | l IHl r IHr | l IHl r IHr | l IHl r IHr ];
    try (simpl; now destruct callback);
    simpl; rewrite IHl, ?IHr, !bind_Ok.
  - rewrite (format_node_unary (abs l) _ _ _ eq_refl (format_unary_abs _)).
    f_equal. simpl. now rewrite !append_assoc.
  - now rewrite (format_node_unary (neg l) _ _ _ eq_refl (format_unary_neg _)).
  - now rewrite (format_node_binary _ "+") by reflexivity.
  - now rewrite (format_node_binary _ "/") by reflexivity.
  - now rewrite (format_node_binary _ "%") by reflexivity.
  - now rewrite (format_node_binary _ "*") by reflexivity.
  - now rewrite (format_node_binary _ "-") by reflexivity.
Qed.

Lemma expression_st_pure (float_repr : float -> string) (S : Type) (v : value)
    (callback : option (value -> value)) (s : S) :
  expression_st float_repr S v (pure_callback callback) s
  = (expression float_repr v callback, s).
Proof.
  revert s.
  induction v as
    [ n | f | d | n o | d o
    | l IHl | l IHl
    | l IHl r IHr | l IHl r IHr | l IHl r IHr | l IHl r IHr | l IHl r IHr ];
    intros s;
    try (simpl; now destruct callback);
    simpl; unfold format_node_st, format_node; simpl getitem;
    rewrite ?IHl; rewrite (expression_Ok float_repr l);
    try (rewrite IHr; rewrite (expression_Ok float_repr r));
    reflexivity.
Qed.

(** ** Equality *)

Lemma py_eq_refl (v : value) : py_eq v v = true.
Proof.
  induction v; simpl;
    try apply Qeq_bool_refl;
    try assumption;
    now rewrite IHv1, IHv2.
Qed.

Lemma py_eq_tracked_int (n m : Z) (o o' : option value) :
  py_eq (IntTrackObj n o) (IntTrackObj m o') = (n =? m).
Proof.
  simpl. unfold Qeq_bool. simpl. now rewrite !Z.mul_1_r.
Qed.

Lemma py_eq_set_operations_l (v w : value) (o : option value) :
  py_eq (set_operations v o) w = py_eq v w.
Proof. destruct v; reflexivity. Qed.

Lemma py_eq_set_operations_r (v w : value) (o : option value) :
  py_eq w (set_operations v o) = py_eq w v.
Proof.
  destruct v; try reflexivity; destruct w; reflexivity.
Qed.

Lemma spec_node_eq_py_eq (v w : value) :
  spec_node_eq v w = true -> py_eq v w = true.
Proof.
  revert w.
  induction v as
    [ n | f | d | n o | d o
    | l IHl | l IHl
    | l IHl r IHr | l IHl r IHr | l IHl r IHr | l IHl r IHr | l IHl r IHr ];
    intros w; destruct w; simpl; intros H;
    try discriminate H; try exact H;
    try (now apply IHl);
    apply andb_true_iff in H; destruct H as [Hl Hr];
    now rewrite (IHl _ Hl), (IHr _ Hr).
Qed.

Lemma py_eq_items (v w : value) :
  isinstance_tuple v = true -> isinstance_tuple w = true ->
  (py_eq v w = true <->
   Forall2 (fun a b => py_eq a b = true) (items v) (items w)).
Proof.
  intros Hv Hw.
  destruct v; try discriminate Hv; destruct w; try discriminate Hw; simpl;
    split; intros H;
    try discriminate H;
    try (inversion H as [| ? ? ? ? ? Ht]; subst;
         inversion Ht as [| ? ? ? ? ? Ht']; subst;
         try (inversion Ht'; fail));
    try (repeat constructor; assumption);
    try assumption;
    try (apply andb_true_iff in H; destruct H; repeat constructor; assumption);
    try (inversion Ht' as [|]; subst; apply andb_true_iff; split; assumption).
Qed.

(** ** The factory *)

(** C9.  [track(n)] of a number returns a wrapper without a recorded
    tree ([operations] is [None]): a [DecimalTrack] holding [n] itself
    when [n] is a Decimal, and an [IntTrack] holding [int(n)]
    otherwise. *)
Theorem track_fresh_wrapper (n : value) :
  isinstance_tuple n = false ->
  exists r,
    track n = Ok r /\
    operations r = None /\
    kind_of r = Some (if isinstance_Decimal n then DecimalKind else IntKind) /\
    (isinstance_Decimal n = true -> Decimal n = Decimal r) /\
    (isinstance_Decimal n = false -> int n = int r).
Proof.
  intros H.
  destruct n; try discriminate H; unfold track; simpl;
    eexists; (split; [reflexivity |]); simpl; repeat split;
    intros; try reflexivity; discriminate.
Qed.

Lemma track_fresh_wrapper_witness :
  isinstance_tuple (PyInt 5) = false /\
  exists r,
    track (PyInt 5) = Ok r /\
    operations r = None /\
    kind_of r = Some IntKind /\
    (isinstance_Decimal (PyInt 5) = true -> Decimal (PyInt 5) = Decimal r) /\
    (isinstance_Decimal (PyInt 5) = false -> int (PyInt 5) = int r).
Proof.
  split; [reflexivity | apply (track_fresh_wrapper (PyInt 5)); reflexivity].
Defined.

(** ** What an operation records *)

Lemma IntTrack_Ok (v : value) (o : option value) (n : Z) :
  int v = Ok n -> IntTrack v o = Ok (IntTrackObj n o).
Proof. unfold IntTrack. now intros ->. Qed.

Lemma IntTrack_inv (v : value) (o : option value) (r : value) :
  IntTrack v o = Ok r -> exists n, int v = Ok n /\ r = IntTrackObj n o.
Proof.
  unfold IntTrack. intros H. apply bind_inv_Ok in H.
  destruct H as [n [Hn Hr]]. exists n. split; [exact Hn | now inversion Hr].
Qed.


Lemma binary_op_inv {T : Type} (type_ : value -> result T)
    (operator : T -> T -> result value) (operation : value -> value -> value)
    (lhs rhs r : value) :
  binary_op type_ operator operation lhs rhs = Ok r ->
  exists a b res n,
    type_ lhs = Ok a /\ type_ rhs = Ok b /\ operator a b = Ok res /\
    int res = Ok n /\
    r = IntTrackObj n (Some (operation (operations_of lhs) (operations_of rhs))).
Proof.
  unfold binary_op. intros H.
  apply bind_inv_Ok in H. destruct H as [a [Ha H]].
  apply bind_inv_Ok in H. destruct H as [b [Hb H]].
  apply bind_inv_Ok in H. destruct H as [res [Hres H]].
  apply IntTrack_inv in H. destruct H as [n [Hn Hr]].
  now exists a, b, res, n.
Qed.







(** ** Errors *)



Lemma method_binary_op (k : kind) (o : binop) (lhs rhs : value) :
  method k o lhs rhs
  = match k with
    | IntKind => binary_op int (arith o) (node_of o) lhs rhs
    | DecimalKind => binary_op Decimal (arith o) (node_of o) lhs rhs
    end.
Proof. destruct k, o; reflexivity. Qed.




(** ** Integer kind: coercion of the operands *)



(** ** Order of the operands *)

(** C2.  [3 / track(Decimal(7))] is handed to
    [DecimalTrack.__rtruediv__], which records [div(7, 3)] and divides
    7 by 3: the left operand of the expression is recorded (and used)
    on the right.  The same expression in the integer kind, and every
    other reflected operator of the decimal kind, keep the order. *)
Theorem DecimalTrack_rtruediv_swaps_operands :
  binary_expr TrueDiv (PyInt 3) (DecimalTrackObj (Dec.of_Z 7) None)
  = Some (Ok (IntTrackObj 2
                (Some (div (DecimalTrackObj (Dec.of_Z 7) None) (PyInt 3))))) /\
  binary_expr TrueDiv (PyInt 3) (IntTrackObj 7 None)
  = Some (Ok (IntTrackObj 0 (Some (div (PyInt 3) (IntTrackObj 7 None))))) /\
  binary_expr Sub (PyInt 3) (DecimalTrackObj (Dec.of_Z 7) None)
  = Some (Ok (IntTrackObj (-4)
                (Some (sub (PyInt 3) (DecimalTrackObj (Dec.of_Z 7) None))))).
Proof. vm_compute. repeat split. Qed.

(** ** Decimal kind *)

(** Whatever the kind of the operands, the result is built by
    [IntTrack]: an integer-kind wrapper around the integer part. *)
Lemma method_returns_IntTrack (k : kind) (o : binop) (lhs rhs r : value) :
  method k o lhs rhs = Ok r -> kind_of r = Some IntKind.
Proof.
  rewrite method_binary_op. destruct k; intros H;
    apply binary_op_inv in H;
    destruct H as (a & b & res & n & _ & _ & _ & _ & ->); reflexivity.
Qed.

(** C3.  [track(Decimal('1.5')) + Decimal('0.25')]: the decimal sum is
    1.75, and the operation returns an [IntTrack] of value 1; the
    result is neither of the decimal kind nor the decimal sum. *)
Theorem DecimalTrack_add_returns_truncated_IntTrack :
  Dec.add (mkdec false 15 (-1)) (mkdec false 25 (-2))
  = Ok (mkdec false 175 (-2)) /\
  binary_expr Add (DecimalTrackObj (mkdec false 15 (-1)) None)
    (PyDecimal (mkdec false 25 (-2)))
  = Some (Ok (IntTrackObj 1
                (Some (add (DecimalTrackObj (mkdec false 15 (-1)) None)
                           (PyDecimal (mkdec false 25 (-2))))))) /\
  py_eq (IntTrackObj 1 None) (PyDecimal (mkdec false 175 (-2))) = false.
Proof. vm_compute. repeat split. Qed.

(** ** Equality of nodes and of tracked values *)

(** C7, as stated, fails: two nodes of different kinds with equal
    operands are equal. *)
Lemma nodes_of_different_kinds_equal :
  py_eq (add (PyInt 1) (PyInt 2)) (sub (PyInt 1) (PyInt 2)) = true /\
  spec_node_eq (add (PyInt 1) (PyInt 2)) (sub (PyInt 1) (PyInt 2)) = false.
Proof. split; reflexivity. Qed.

(** C7, amended.  Two nodes are equal iff they have the same number of
    operands and equal operands, position by position; the kind takes
    no part, so nodes of the same kind with equal operands are equal
    and so are nodes of different kinds.  Tracked values are equal
    iff their numbers are: the recorded tree takes no part, on either
    side of the comparison. *)
Theorem py_eq_nodes_by_operands_tracked_by_number :
  (forall v w,
     isinstance_tuple v = true -> isinstance_tuple w = true ->
     (py_eq v w = true <->
      Forall2 (fun a b => py_eq a b = true) (items v) (items w))) /\
  (forall v w, spec_node_eq v w = true -> py_eq v w = true) /\
  (forall v, py_eq v v = true) /\
  (forall n m o o', py_eq (IntTrackObj n o) (IntTrackObj m o') = (n =? m)) /\
  (forall v w o,
     py_eq (set_operations v o) w = py_eq v w /\
     py_eq w (set_operations v o) = py_eq w v).
Proof.
  refine (conj _ (conj _ (conj _ (conj _ _)))).
  - exact py_eq_items.
  - exact spec_node_eq_py_eq.
  - exact py_eq_refl.
  - exact py_eq_tracked_int.
  - intros v w o. split;
      [apply py_eq_set_operations_l | apply py_eq_set_operations_r].
Qed.

Lemma py_eq_nodes_by_operands_tracked_by_number_witness :
  py_eq (add (PyInt 1) (PyInt 2)) (sub (PyInt 1) (PyInt 2)) = true <->
  Forall2 (fun a b => py_eq a b = true) [PyInt 1; PyInt 2] [PyInt 1; PyInt 2].
Proof.
  exact (proj1 py_eq_nodes_by_operands_tracked_by_number
           (add (PyInt 1) (PyInt 2)) (sub (PyInt 1) (PyInt 2))
           eq_refl eq_refl).
Defined.

(** ** Integer kind: true division *)

(** *** Binary64 division of two integers below [2^53] *)





Lemma two54_pow : two54 = 2 ^ 54. Proof. reflexivity. Qed.














(** *** The division never returns a NaN *)

Lemma shr_1_nonneg (mrs : shr_record) :
  0 <= shr_m mrs -> 0 <= shr_m (shr_1 mrs).
Proof.
  destruct mrs as [m r s]. simpl.
  destruct m as [| [p | p |] | p]; simpl; lia.
Qed.

Lemma iter_pos_shr_1_nonneg (p : positive) (mrs : shr_record) :
  0 <= shr_m mrs -> 0 <= shr_m (iter_pos shr_1 p mrs).
Proof.
  revert mrs. induction p as [p IH | p IH |]; intros mrs H; simpl.
  - apply IH, IH, shr_1_nonneg, H.
  - apply IH, IH, H.
  - apply shr_1_nonneg, H.
Qed.

Lemma shr_fexp_nonneg (m e : Z) (l : location) :
  0 <= m -> 0 <= shr_m (fst (shr_fexp 53 1024 m e l)).
Proof.
  intros Hm. unfold shr_fexp, shr.
  assert (H0 : 0 <= shr_m (shr_record_of_loc m l))
    by (destruct l as [| []]; exact Hm).
  destruct (fexp 53 1024 (Zdigits2 m + e) - e); simpl;
    try exact H0.
  now apply iter_pos_shr_1_nonneg.
Qed.

Lemma round_nearest_even_nonneg (m : Z) (l : location) :
  0 <= m -> 0 <= round_nearest_even m l.
Proof.
  intros Hm. destruct l as [| []]; simpl; try lia.
  destruct (Z.even m); lia.
Qed.

Lemma binary_round_aux_not_nan (sx : bool) (mx ex : Z) (lx : location) :
  0 <= mx -> binary_round_aux 53 1024 sx mx ex lx <> S754_nan.
Proof.
  intros Hm. unfold binary_round_aux.
  pose proof (shr_fexp_nonneg mx ex lx Hm) as H1.
  destruct (shr_fexp 53 1024 mx ex lx) as [mrs' e']. simpl in H1.
  pose proof (shr_fexp_nonneg _ e' loc_Exact
                (round_nearest_even_nonneg _ (loc_of_shr_record mrs') H1)) as H2.
  destruct (shr_fexp 53 1024
              (round_nearest_even (shr_m mrs') (loc_of_shr_record mrs'))
              e' loc_Exact) as [mrs'' e'']. simpl in H2.
  destruct (shr_m mrs'') as [| m | m]; try discriminate; [| lia].
  destruct (e'' <=? 1024 - 53); discriminate.
Qed.

Lemma SFdiv_core_nonneg (a b : positive) (q e : Z) (l : location) :
  SFdiv_core_binary 53 1024 (Zpos a) 0 (Zpos b) 0 = (q, e, l) -> 0 <= q.
Proof.
  unfold SFdiv_core_binary.
  set (s := 0 - 0 - _).
  set (m' := match s with Z0 => Zpos a | Zpos _ => Z.shiftl (Zpos a) s
                     | Zneg _ => 0 end).
  assert (Hm' : 0 <= m').
  { unfold m'. destruct s; try lia. apply Z.shiftl_nonneg. lia. }
  pose proof (Z_div_mod m' (Zpos b) ltac:(lia)) as Hdm.
  destruct (Z.div_eucl m' (Zpos b)) as [q' r']. destruct Hdm as [Hdm Hr].
  intros H. inversion H; subst. nia.
Qed.

(** An integer division by a nonzero integer returns a float or is too
    large for one. *)
Lemma int_truediv_outcome (a b : Z) :
  b <> 0 ->
  is_ok (int_truediv a b) = true \/ int_truediv a b = Raise OverflowError.
Proof.
  intros Hb. unfold int_truediv.
  destruct (Z.eqb_spec b 0) as [-> | _]; [now contradiction Hb |].
  assert (Hff : forall sa sb pa pb,
             let x := SFdiv 53 1024 (S754_finite sa pa 0) (S754_finite sb pb 0) in
             is_ok (float_of_SF x) = true \/ float_of_SF x = Raise OverflowError).
  { intros sa sb pa pb. cbv zeta. unfold SFdiv.
    destruct (SFdiv_core_binary 53 1024 (Zpos pa) 0 (Zpos pb) 0)
      as [[q e] l] eqn:Hc.
    pose proof (binary_round_aux_not_nan (xorb sa sb) q e l
                  (SFdiv_core_nonneg pa pb q e l Hc)) as Hn.
    destruct (binary_round_aux 53 1024 (xorb sa sb) q e l);
      simpl; auto; now contradiction Hn. }
  destruct a as [| pa | pa], b as [| pb | pb];
    try (now contradiction Hb);
    try (left; reflexivity);
    apply Hff.
Qed.



(** Above [2^53] the float is rounded before [IntTrack] truncates it,
    and a quotient too large for a float is an error. *)
Example truediv_rounds_then_truncates :
  binary_expr TrueDiv (IntTrackObj (10 ^ 17 - 1) None) (PyInt (10 ^ 17))
  = Some (Ok (IntTrackObj 1
                (Some (div (IntTrackObj (10 ^ 17 - 1) None) (PyInt (10 ^ 17)))))) /\
  Z.quot (10 ^ 17 - 1) (10 ^ 17) = 0 /\
  binary_expr TrueDiv (IntTrackObj (10 ^ 400) None) (PyInt 1)
  = Some (Raise OverflowError).
Proof. vm_compute. repeat split. Qed.




(** ** Integer kind: every operation coerces its operands *)





(* ================================================================== *)
(** * Further properties *)
(* ================================================================== *)

(** ** The callback *)

Lemma leaves_not_tuple (v : value) :
  Forall (fun l => isinstance_tuple l = false) (leaves v).
Proof.
  induction v; simpl;
    try (repeat constructor; fail);
    try assumption;
    apply Forall_app; split; assumption.
Qed.

Lemma expression_st_Some (float_repr : float -> string) (S : Type)
    (callback : value -> S -> value * S) (v : value) (s : S) :
  exists out,
    expression_st float_repr S v (Some callback) s
    = (Ok out, fold_left (fun s l => snd (callback l s)) (leaves v) s).
Proof.
  revert s.
  induction v as
    [ n | f | d | n o | d o
    | l IHl | l IHl
    | l IHl r IHr | l IHl r IHr | l IHl r IHr | l IHl r IHr | l IHl r IHr ];
    intros s;
    try (simpl; destruct (callback _ s) as [w s1]; now eexists);
    simpl; unfold format_node_st; simpl getitem;
    destruct (IHl s) as [sl Hl]; rewrite Hl;
    try (destruct (IHr (fold_left (fun s l => snd (callback l s)) (leaves l) s))
           as [sr Hr]; rewrite Hr; rewrite fold_left_app);
    rewrite !bind_Ok.
  - rewrite format_unary_abs, bind_Ok, format_parens. now eexists.
  - rewrite format_unary_neg, bind_Ok, format_parens. now eexists.
  - rewrite (format_binary "+") by reflexivity.
    rewrite bind_Ok, format_parens. now eexists.
  - rewrite (format_binary "/") by reflexivity.
    rewrite bind_Ok, format_parens. now eexists.
  - rewrite (format_binary "%") by reflexivity.
    rewrite bind_Ok, format_parens. now eexists.
  - rewrite (format_binary "*") by reflexivity.
    rewrite bind_Ok, format_parens. now eexists.
  - rewrite (format_binary "-") by reflexivity.
    rewrite bind_Ok, format_parens. now eexists.
Qed.

(** X1.  Whatever the callback does to the caller's state, [expression]
    returns a string and calls the callback once on each literal of the
    tree, from left to right, and on nothing else: never on a node. *)
Theorem expression_calls_callback_on_leaves (float_repr : float -> string)
    (S : Type) (callback : value -> S -> value * S) (v : value) (s : S) :
  (exists out,
     expression_st float_repr S v (Some callback) s
     = (Ok out, fold_left (fun s l => snd (callback l s)) (leaves v) s)) /\
  Forall (fun l => isinstance_tuple l = false) (leaves v) /\
  snd (expression_st float_repr S v None s) = s.
Proof.
  split; [apply expression_st_Some |].
  split; [apply leaves_not_tuple |].
  change (@None (value -> S -> value * S)) with (@pure_callback S None).
  now rewrite expression_st_pure.
Qed.

(** X2.  When the callback maps literals to literals, rendering with it
    is rendering the tree whose literals it has replaced.  A callback
    that returns a node gets the node's [repr], not its rendering. *)
Theorem expression_callback_maps_leaves (float_repr : float -> string)
    (v : value) (f : value -> value) :
  Forall (fun l => isinstance_tuple (f l) = false) (leaves v) ->
  expression float_repr v (Some f)
  = expression float_repr (map_leaves f v) None.
Proof.
  induction v as
    [ n | f0 | d | n o | d o
    | l IHl | l IHl
    | l IHl r IHr | l IHl r IHr | l IHl r IHr | l IHl r IHr | l IHl r IHr ];
    simpl; intros H;
    try (inversion H as [| ? ? Hf _]; subst;
         now rewrite (expression_literal _ _ None Hf));
    try (now rewrite (IHl H));
    apply Forall_app in H; destruct H as [Hl Hr];
    now rewrite (IHl Hl), (IHr Hr).
Qed.

Lemma expression_callback_maps_leaves_witness :
  expression (fun _ => EmptyString) (add (PyInt 1) (PyInt 2))
    (Some (fun v => mul v v))
  <> expression (fun _ => EmptyString)
       (map_leaves (fun v => mul v v) (add (PyInt 1) (PyInt 2))) None /\
  expression (fun _ => EmptyString) (add (PyInt 1) (PyInt 2))
    (Some (fun _ => PyInt 7))
  = expression (fun _ => EmptyString)
      (map_leaves (fun _ => PyInt 7) (add (PyInt 1) (PyInt 2))) None.
Proof.
  split.
  - vm_compute. discriminate.
  - apply (expression_callback_maps_leaves (fun _ => EmptyString)
             (add (PyInt 1) (PyInt 2)) (fun _ => PyInt 7)).
    repeat constructor.
Defined.

(** ** Operations, order and rendering *)




Lemma infix_template (o : binop) (l r : value) :
  getitem op_format (class_name (node_of o l r))
  = Ok (match o with
        | Add => "{} + {}" | Sub => "{} - {}" | Mul => "{} * {}"
        | TrueDiv => "{} / {}" | Mod => "{} % {}"
        end)%string.
Proof. destruct o; reflexivity. Qed.




(** ** The literals of a recorded tree *)




(** ** The factory, again *)

(** X6.  Tracking a value that is already tracked keeps its number and
    its class and drops its tree; tracking twice is tracking once. *)
Theorem track_idempotent (v r : value) :
  track v = Ok r ->
  track r = Ok r /\
  (kind_of v <> None -> r = set_operations v None).
Proof.
  intros H. unfold track, DecimalTrack, IntTrack in H.
  destruct v; simpl in H; inversion H; subst; split;
    try reflexivity; intros Hk; try reflexivity; now contradiction Hk.
Qed.

Lemma track_idempotent_witness :
  track (IntTrackObj 7 None) = Ok (IntTrackObj 7 None) /\
  (kind_of (IntTrackObj 7 (Some (add (PyInt 3) (PyInt 4)))) <> None ->
   IntTrackObj 7 None
   = set_operations (IntTrackObj 7 (Some (add (PyInt 3) (PyInt 4)))) None).
Proof.
  exact (track_idempotent (IntTrackObj 7 (Some (add (PyInt 3) (PyInt 4))))
           (IntTrackObj 7 None) eq_refl).
Defined.

(** ** Integer operands: the tree describes the value *)







(** ** Errors of the integer kind *)


(** X8.  When [int] converts the two operands to the integers [a] and
    [b] (as it does every int, finite float and finite Decimal, tracked
    or not), the integer kind's [+], [-] and [*] return; [%] and [/]
    raise [ZeroDivisionError] exactly when [b] is zero (so
    [track(5) % 0.5] raises), and otherwise [%] returns and [/]
    returns or raises [OverflowError].  A node given as an operand is
    refused before any arithmetic, with [TypeError] by [IntTrack] and
    [ValueError] by [DecimalTrack]. *)
Theorem operations_raise_on_zero_and_nodes :
  (forall lhs rhs a b,
     int lhs = Ok a -> int rhs = Ok b ->
     (forall o, o = Add \/ o = Sub \/ o = Mul ->
        is_ok (method IntKind o lhs rhs) = true) /\
     (b = 0 ->
        method IntKind Mod lhs rhs = Raise ZeroDivisionError /\
        method IntKind TrueDiv lhs rhs = Raise ZeroDivisionError) /\
     (b <> 0 ->
        is_ok (method IntKind Mod lhs rhs) = true /\
        (is_ok (method IntKind TrueDiv lhs rhs) = true \/
         method IntKind TrueDiv lhs rhs = Raise OverflowError))) /\
  (forall k o lhs rhs,
     isinstance_tuple lhs = true \/ isinstance_tuple rhs = true ->
     method k o lhs rhs
     = Raise (match k with IntKind => TypeError | DecimalKind => ValueError end)).
Proof.
  split.
  - intros lhs rhs a b Ha Hb.
    assert (Hm : forall o,
               method IntKind o lhs rhs
               = bind (arith o a b)
                   (fun res =>
                      IntTrack res
                        (Some (node_of o (operations_of lhs)
                                         (operations_of rhs))))).
    { intros o. rewrite method_binary_op. unfold binary_op.
      now rewrite Ha, Hb. }
    refine (conj _ (conj _ _)).
    + intros o [-> | [-> | ->]]; rewrite Hm; reflexivity.
    + intros ->. rewrite !Hm. split; reflexivity.
    + intros Hnz. rewrite !Hm. split.
      * simpl. unfold int_mod.
        destruct (Z.eqb_spec b 0); [contradiction | reflexivity].
      * simpl. unfold wrap.
        destruct (int_truediv_outcome a b Hnz) as [H | H].
        -- left. destruct (int_truediv a b); [reflexivity | discriminate H].
        -- right. now rewrite H.
  - intros k o lhs rhs H. rewrite method_binary_op.
    destruct k; unfold binary_op.
    + destruct lhs; destruct H as [H | H]; try discriminate H;
        try reflexivity;
        destruct rhs; try discriminate H; reflexivity.
    + destruct lhs; destruct H as [H | H]; try discriminate H;
        try reflexivity;
        destruct rhs; try discriminate H; reflexivity.
Qed.

Lemma operations_raise_on_zero_and_nodes_witness :
  method IntKind Mod (IntTrackObj 5 None) (PyFloat (mkfloat false 1 (-1)))
  = Raise ZeroDivisionError /\
  method IntKind TrueDiv (IntTrackObj 5 None) (PyFloat (mkfloat false 1 (-1)))
  = Raise ZeroDivisionError.
Proof.
  exact (proj1 (proj2 (proj1 operations_raise_on_zero_and_nodes
                         (IntTrackObj 5 None) (PyFloat (mkfloat false 1 (-1)))
                         5 0 eq_refl eq_refl))
           eq_refl).
Defined.
